(** * stack/assets.py: the assets fragment of the CloudFormation template

    A shallow embedding of [stack/assets.py] (S3 buckets, their outputs, the
    asset management policy and the CloudFront distributions) together with
    the meaning CloudFormation gives to the intrinsic functions the module
    uses ([Ref], [Fn::GetAtt], [Fn::Join], [Fn::Split], [Fn::If],
    [Fn::Equals], [AWS::NoValue]). *)

From Stdlib Require Import String Ascii List Bool.
From stdpp Require Import base option gmap strings list fin_maps.

Open Scope string_scope.
Set Warnings "-register-all".

(** ** Template expressions

    The values troposphere lets the module write: literals, lists, keyword
    dictionaries ([dict(...)] and the property classes, which are keyword
    dictionaries with a class name) and the intrinsic function helpers. *)

Inductive Expr : Type :=
  | Str (s : string)
  | Bool (b : bool)
  | List (xs : list Expr)
  | Dict (kw : list (string * Expr))
  | Ref (name : string)
  | GetAtt (logicalName attrName : string)
  | Join (delimiter : string) (values : Expr)
  | Split (delimiter : string) (values : Expr)
  | If (cond : string) (true_value false_value : Expr)
  | Equals (value_one value_two : Expr).

(** What is left of an expression once CloudFormation has resolved it. *)
Inductive Json : Type :=
  | JStr (s : string)
  | JBool (b : bool)
  | JList (xs : list Json)
  | JDict (kw : list (string * Json)).

(** [NoValue] is the answer of [Ref("AWS::NoValue")]: the property that
    receives it is removed. [Invalid] is a template CloudFormation rejects. *)
Inductive Resolved : Type :=
  | Value (j : Json)
  | NoValue
  | Invalid.

(** Keyword lookup, as [d[key]] / [getattr(obj, key)]. *)
Fixpoint kwget {A : Type} (key : string) (kw : list (string * A)) : option A :=
  match kw with
  | [] => None
  | (k, v) :: rest => if String.eqb k key then Some v else kwget key rest
  end.

Definition field (key : string) (e : Expr) : option Expr :=
  match e with
  | Dict kw => kwget key kw
  | _ => None
  end.

(** ** Strings: [Fn::Join] and [Fn::Split] *)

(** [Fn::Join]: the values, with the delimiter between neighbours. *)
Fixpoint join (delimiter : string) (values : list string) : string :=
  match values with
  | [] => ""
  | [v] => v
  | v :: rest => v +:+ delimiter +:+ join delimiter rest
  end.

(** [Fn::Split]: cut the source at every occurrence of the (non-empty)
    delimiter, scanning from the left; [skip] counts the characters of a
    delimiter occurrence still to be passed over and [cur] is the piece read
    so far. *)
Fixpoint split_from (delimiter : string) (skip : nat) (cur source : string)
  : list string :=
  match source with
  | EmptyString => [cur]
  | String c rest =>
      match skip with
      | S k => split_from delimiter k cur rest
      | O =>
          if String.prefix delimiter source
          then cur :: split_from delimiter (String.length delimiter - 1) "" rest
          else split_from delimiter 0 (cur +:+ String c "") rest
      end
  end.

Definition split (delimiter source : string) : list string :=
  split_from delimiter 0 "" source.

(** ** Resolution of intrinsic functions

    A deployed stack fixes what [Ref] answers for each parameter and resource
    and what [Fn::GetAtt] answers for each resource attribute; the conditions
    of the template are evaluated first and [Fn::If] reads their truth value. *)

Record Stack : Type := {
  refs : gmap string Json;
  atts : gmap (string * string) Json;
}.

(** The values of [Fn::Join] must all be strings. *)
Fixpoint strings_of (js : list Json) : option (list string) :=
  match js with
  | [] => Some []
  | JStr s :: rest =>
      match strings_of rest with
      | Some ss => Some (s :: ss)
      | None => None
      end
  | _ :: _ => None
  end.

Definition jlist (items : option (list Json)) : Resolved :=
  match items with
  | Some js => Value (JList js)
  | None => Invalid
  end.

Definition jdict (fields : option (list (string * Json))) : Resolved :=
  match fields with
  | Some kw => Value (JDict kw)
  | None => Invalid
  end.

Section resolve.
Variable st : Stack.
Variable conds : gmap string bool.

Fixpoint resolve (e : Expr) : Resolved :=
  match e with
  | Str s => Value (JStr s)
  | Bool b => Value (JBool b)
  | List xs =>
      jlist ((fix items (xs : list Expr) : option (list Json) :=
         match xs with
         | [] => Some []
         | x :: rest =>
             match resolve x, items rest with
             | Value j, Some js => Some (j :: js)
             | NoValue, Some js => Some js
             | _, _ => None
             end
         end) xs)
  | Dict kw =>
      jdict ((fix fields (kw : list (string * Expr)) : option (list (string * Json)) :=
         match kw with
         | [] => Some []
         | (k, x) :: rest =>
             match resolve x, fields rest with
             | Value j, Some js => Some ((k, j) :: js)
             | NoValue, Some js => Some js
             | _, _ => None
             end
         end) kw)
  | Ref name =>
      if String.eqb name "AWS::NoValue" then NoValue
      else match refs st !! name with
           | Some j => Value j
           | None => Invalid
           end
  | GetAtt logicalName attrName =>
      match atts st !! (logicalName, attrName) with
      | Some j => Value j
      | None => Invalid
      end
  | Join delimiter values =>
      match resolve values with
      | Value (JList js) =>
          match strings_of js with
          | Some ss => Value (JStr (join delimiter ss))
          | None => Invalid
          end
      | _ => Invalid
      end
  | Split delimiter source =>
      match resolve source with
      | Value (JStr s) => Value (JList (JStr <$> split delimiter s))
      | _ => Invalid
      end
  | If cond true_value false_value =>
      match conds !! cond with
      | Some true => resolve true_value
      | Some false => resolve false_value
      | None => Invalid
      end
  | Equals value_one value_two =>
      match resolve value_one, resolve value_two with
      | Value (JStr a), Value (JStr b) => Value (JBool (String.eqb a b))
      | _, _ => Invalid
      end
  end.
End resolve.

(** ** troposphere objects *)

(** A resource ([AWSObject]): logical name, resource type, resource-level
    attributes and properties. *)
Record AWSObject : Type := {
  title : string;
  resource_type : string;
  attributes : list (string * Expr);
  properties : list (string * Expr);
}.

(** A parameter or an output ([AWSDeclaration]): a name and its properties. *)
Record AWSDeclaration : Type := {
  decl_title : string;
  decl_properties : list (string * Expr);
}.

(** Keywords troposphere stores on the resource itself, not among its
    properties. *)
Definition resource_attributes : list string :=
  ["Condition"; "CreationPolicy"; "DeletionPolicy"; "DependsOn"; "Metadata";
   "UpdatePolicy"; "UpdateReplacePolicy"].

Definition is_attribute (kv : string * Expr) : bool :=
  existsb (String.eqb (fst kv)) resource_attributes.

Definition mk_resource (type name : string) (kwargs : list (string * Expr))
  : AWSObject :=
  {| title := name;
     resource_type := type;
     attributes := List.filter is_attribute kwargs;
     properties := List.filter (fun kv => negb (is_attribute kv)) kwargs |}.

Definition Bucket : string -> list (string * Expr) -> AWSObject :=
  mk_resource "AWS::S3::Bucket".
Definition Distribution : string -> list (string * Expr) -> AWSObject :=
  mk_resource "AWS::CloudFront::Distribution".
Definition Parameter_ (name : string) (kwargs : list (string * Expr))
  : AWSDeclaration :=
  {| decl_title := name; decl_properties := kwargs |}.
Definition Output (name : string) (kwargs : list (string * Expr))
  : AWSDeclaration :=
  {| decl_title := name; decl_properties := kwargs |}.

(** Property classes: keyword dictionaries. *)
Definition VersioningConfiguration := Dict.
Definition CorsConfiguration := Dict.
Definition CorsRules := Dict.
Definition DistributionConfig := Dict.
Definition Origin := Dict.
Definition S3Origin := Dict.
Definition DefaultCacheBehavior := Dict.
Definition ForwardedValues := Dict.
Definition ViewerCertificate := Dict.
Definition iam_Policy := Dict.
Definition dict := Dict.

(** [troposphere.s3] access-control constants. *)
Definition PublicRead : string := "PublicRead".
Definition Private : string := "Private".

(** [Ref(obj)] and [GetAtt(obj, attr)] name the object by its title. *)
Definition Ref_resource (obj : AWSObject) : Expr := Ref (title obj).
Definition Ref_parameter (obj : AWSDeclaration) : Expr := Ref (decl_title obj).
Definition GetAtt_resource (obj : AWSObject) (attrName : string) : Expr :=
  GetAtt (title obj) attrName.

(** ** The template accumulator *)

(** Modelled from the spec: the shared template accumulator ([template] of
    [stack/template.py], a troposphere [Template], absent from the sources at
    hand), exposing add resource / add output / add parameter / add
    condition. Each registry is keyed by the declaration's name and a
    registration always succeeds; [add_condition] assigns [conditions[name]],
    so a name registered again holds the later declaration. *)
Record Template : Type := {
  resources : gmap string AWSObject;
  outputs : gmap string AWSDeclaration;
  parameters : gmap string AWSDeclaration;
  conditions : gmap string Expr;
}.

Definition empty_template : Template :=
  {| resources := ∅; outputs := ∅; parameters := ∅; conditions := ∅ |}.

(** Module-level code runs against the accumulator: a state monad. *)
Definition M (A : Type) : Type := Template -> A * Template.

Definition ret {A : Type} (a : A) : M A := fun t => (a, t).
Definition bind {A B : Type} (m : M A) (k : A -> M B) : M B :=
  fun t => let (a, t') := m t in k a t'.

Notation "x <- m ;; k" := (bind m (fun x => k))
  (at level 100, m at next level, right associativity).
Notation "m ;; k" := (bind m (fun _ => k))
  (at level 100, right associativity).

Definition add_resource (resource : AWSObject) : M AWSObject := fun t =>
  (resource,
   {| resources := <[title resource := resource]> (resources t);
      outputs := outputs t;
      parameters := parameters t;
      conditions := conditions t |}).

Definition add_output (output : AWSDeclaration) : M AWSDeclaration := fun t =>
  (output,
   {| resources := resources t;
      outputs := <[decl_title output := output]> (outputs t);
      parameters := parameters t;
      conditions := conditions t |}).

Definition add_parameter (parameter : AWSDeclaration) : M AWSDeclaration :=
  fun t =>
  (parameter,
   {| resources := resources t;
      outputs := outputs t;
      parameters := <[decl_title parameter := parameter]> (parameters t);
      conditions := conditions t |}).

Definition add_condition (name : string) (condition : Expr) : M string :=
  fun t =>
  (name,
   {| resources := resources t;
      outputs := outputs t;
      parameters := parameters t;
      conditions := <[name := condition]> (conditions t) |}).

(** [os.environ.get(key) != value] *)
Definition environ_ne (environ : gmap string string) (key value : string)
  : bool :=
  match environ !! key with
  | Some v => negb (String.eqb v value)
  | None => true
  end.

(** ** stack/assets.py *)

(** The names the module binds. [distribution] is [None] in the [else]
    branch; [media_distribution] is bound only when the distributions are
    built. *)
Record Assets : Type := {
  assets_bucket : AWSObject;
  private_assets_bucket : AWSObject;
  assets_management_policy : Expr;
  distribution : option AWSObject;
  media_distribution : option AWSObject;
}.

Section assets.
(** [from .common import arn_prefix] *)
Variable arn_prefix : Expr.
(** [from .domain import domain_name, domain_name_alternates, no_alt_domains] *)
Variable domain_name : Expr.
Variable domain_name_alternates : Expr.
Variable no_alt_domains : string.

Definition common_bucket_conf : list (string * Expr) :=
  [ ("VersioningConfiguration",
      VersioningConfiguration [ ("Status", Str "Enabled") ]);
    ("DeletionPolicy", Str "Retain");
    ("CorsConfiguration",
      CorsConfiguration
        [ ("CorsRules",
            List [ CorsRules
              [ ("AllowedOrigins",
                  Split ";" (Join "" (List
                    [ Str "https://"; domain_name;
                      If no_alt_domains
                         (Str "")
                         (Str ";https://");
                      Join ";https://" domain_name_alternates ])));
                ("AllowedMethods",
                  List [ Str "POST"; Str "PUT"; Str "HEAD"; Str "GET" ]);
                ("AllowedHeaders", List [ Str "*" ]) ] ]) ]) ].

Definition assets (environ : gmap string string) : M Assets :=
  assets_bucket <- add_resource
    (Bucket "AssetsBucket"
       (("AccessControl", Str PublicRead) :: common_bucket_conf)) ;;
  add_output (Output "AssetsBucketDomainName"
    [ ("Description", Str "Assets bucket domain name");
      ("Value", GetAtt_resource assets_bucket "DomainName") ]) ;;
  private_assets_bucket <- add_resource
    (Bucket "PrivateAssetsBucket"
       (("AccessControl", Str Private) :: common_bucket_conf)) ;;
  add_output (Output "PrivateAssetsBucketDomainName"
    [ ("Description", Str "Private assets bucket domain name");
      ("Value", GetAtt_resource private_assets_bucket "DomainName") ]) ;;
  let assets_management_policy := iam_Policy
    [ ("PolicyName", Str "AssetsManagementPolicy");
      ("PolicyDocument", dict
        [ ("Statement", List
            [ dict
                [ ("Effect", Str "Allow");
                  ("Action", List [ Str "s3:ListBucket" ]);
                  ("Resource", Join "" (List
                    [ arn_prefix; Str ":s3:::"; Ref_resource assets_bucket ])) ];
              dict
                [ ("Effect", Str "Allow");
                  ("Action", List [ Str "s3:*" ]);
                  ("Resource", Join "" (List
                    [ arn_prefix; Str ":s3:::"; Ref_resource assets_bucket;
                      Str "/*" ])) ];
              dict
                [ ("Effect", Str "Allow");
                  ("Action", List [ Str "s3:ListBucket" ]);
                  ("Resource", Join "" (List
                    [ arn_prefix; Str ":s3:::";
                      Ref_resource private_assets_bucket ])) ];
              dict
                [ ("Effect", Str "Allow");
                  ("Action", List [ Str "s3:*" ]);
                  ("Resource", Join "" (List
                    [ arn_prefix; Str ":s3:::";
                      Ref_resource private_assets_bucket; Str "/*" ])) ] ]) ]) ]
  in
  if environ_ne environ "USE_GOVCLOUD" "on" then
    distribution_aliases_parameter <- add_parameter
      (Parameter_ "DistributionAliases"
        [ ("Description", Str ("A comma-separated list of CNAMEs (alternate domain names), if any, for the "
                               +:+ "CloudFront distribution, e.g. static.mydomain.com"));
          ("Type", Str "CommaDelimitedList") ]) ;;
    let distribution_aliases := Ref_parameter distribution_aliases_parameter in
    distribution <- add_resource
      (Distribution "AssetsDistribution"
        [ ("DistributionConfig", DistributionConfig
            [ ("Aliases", distribution_aliases);
              ("Origins", List [ Origin
                [ ("Id", Str "Assets");
                  ("DomainName", GetAtt_resource assets_bucket "DomainName");
                  ("S3OriginConfig", S3Origin
                    [ ("OriginAccessIdentity", Str "") ]) ] ]);
              ("DefaultCacheBehavior", DefaultCacheBehavior
                [ ("TargetOriginId", Str "Assets");
                  ("ForwardedValues", ForwardedValues
                    [ ("QueryString", Bool true);
                      ("Headers", List
                        [ Str "Origin";
                          Str "Access-Control-Request-Headers";
                          Str "Access-Control-Request-Method" ]) ]);
                  ("ViewerProtocolPolicy", Str "allow-all") ]);
              ("Enabled", Bool true) ]) ]) ;;
    media_distribution_alias_parameter <- add_parameter
      (Parameter_ "MediaDistributionAlias"
        [ ("Description", Str ("Optional CNAME (alternate domain name) for the PrivateAssetsBucket's "
                               +:+ "CloudFront distribution, e.g. media.mydomain.com"));
          ("Type", Str "String") ]) ;;
    let media_distribution_alias :=
      Ref_parameter media_distribution_alias_parameter in
    let no_media_distribution_alias := "NoMediaDistributionAlias" in
    add_condition no_media_distribution_alias
      (Equals media_distribution_alias (Str "")) ;;
    media_acm_certificate_arn_parameter <- add_parameter
      (Parameter_ "MediaAcmCertificateArn"
        [ ("Description", Str ("If you're using MediaDistributionAlias, enter the Amazon Resource Name (ARN) "
                               +:+ "of an AWS Certificate Manager (ACM) certificate from US East (N. Virginia)."));
          ("Type", Str "String") ]) ;;
    let media_acm_certificate_arn :=
      Ref_parameter media_acm_certificate_arn_parameter in
    let no_media_acm_certificate_arn := "NoMediaDistributionAlias" in
    add_condition no_media_acm_certificate_arn
      (Equals media_acm_certificate_arn (Str "")) ;;
    media_distribution <- add_resource
      (Distribution "MediaAssetsDistribution"
        [ ("DistributionConfig", DistributionConfig
            [ ("Aliases", If no_media_distribution_alias
                             (Ref "AWS::NoValue")
                             (List [ media_distribution_alias ]));
              ("Origins", List [ Origin
                [ ("Id", Str "Assets");
                  ("DomainName",
                    GetAtt_resource private_assets_bucket "DomainName");
                  ("S3OriginConfig", S3Origin
                    [ ("OriginAccessIdentity", Str "") ]) ] ]);
              ("DefaultCacheBehavior", DefaultCacheBehavior
                [ ("TargetOriginId", Str "Assets");
                  ("ForwardedValues", ForwardedValues
                    [ ("QueryString", Bool true);
                      ("Headers", List
                        [ Str "Origin";
                          Str "Access-Control-Request-Headers";
                          Str "Access-Control-Request-Method" ]) ]);
                  ("ViewerProtocolPolicy", Str "allow-all") ]);
              ("Enabled", Bool true);
              ("ViewerCertificate", If no_media_acm_certificate_arn
                (Ref "AWS::NoValue")
                (ViewerCertificate
                  [ ("AcmCertificateArn", media_acm_certificate_arn);
                    ("SslSupportMethod", Str "sni-only") ])) ]) ]) ;;
    add_output (Output "AssetsDistributionDomainName"
      [ ("Description", Str "The assest CDN domain name");
        ("Value", GetAtt_resource distribution "DomainName") ]) ;;
    ret {| assets_bucket := assets_bucket;
           private_assets_bucket := private_assets_bucket;
           assets_management_policy := assets_management_policy;
           distribution := Some distribution;
           media_distribution := Some media_distribution |}
  else
    ret {| assets_bucket := assets_bucket;
           private_assets_bucket := private_assets_bucket;
           assets_management_policy := assets_management_policy;
           distribution := None;
           media_distribution := None |}.

End assets.

(** ** Deploying the template *)

(** The truth value of each registered condition. Conditions are evaluated
    before anything else and do not read other conditions through [Fn::If]. *)
Definition condition_value (st : Stack) (condition : Expr) : option bool :=
  match resolve st ∅ condition with
  | Value (JBool b) => Some b
  | _ => None
  end.

Definition condition_values (st : Stack) (t : Template) : gmap string bool :=
  omap (condition_value st) (conditions t).

(** An expression of the template as CloudFormation resolves it in a stack. *)
Definition resolve_in (st : Stack) (t : Template) (e : Expr) : Resolved :=
  resolve st (condition_values st t) e.

(** The properties of a resource as resolved in a stack. *)
Definition resolve_resource (st : Stack) (t : Template) (r : AWSObject)
  : Resolved :=
  resolve_in st t (Dict (properties r)).

(** ** Reading declarations *)

(** The allowed-origins expression of a bucket configuration:
    [conf["CorsConfiguration"].CorsRules[0].AllowedOrigins]. *)
Definition cors_allowed_origins (conf : list (string * Expr)) : option Expr :=
  match kwget "CorsConfiguration" conf ≫= field "CorsRules" with
  | Some (List [rule]) => field "AllowedOrigins" rule
  | _ => None
  end.

(** Every binding of a key in a resolved keyword dictionary. *)
Definition bindings (key : string) (kw : list (string * Json))
  : list (string * Json) :=
  List.filter (fun kv => String.eqb (fst kv) key) kw.

(** [resource.DistributionConfig] *)
Definition distribution_config (r : AWSObject) : option Expr :=
  kwget "DistributionConfig" (properties r).

(** [distribution.DistributionConfig.<key>], when the module bound a
    distribution. *)
Definition config_field (d : option AWSObject) (key : string) : option Expr :=
  match d with
  | Some r =>
      match distribution_config r with
      | Some config => field key config
      | None => None
      end
  | None => None
  end.

(** [distribution.DistributionConfig.DefaultCacheBehavior.<key>] *)
Definition behavior_field (d : option AWSObject) (key : string)
  : option Expr :=
  match config_field d "DefaultCacheBehavior" with
  | Some behavior => field key behavior
  | None => None
  end.

(** The [Type] of a registered parameter. *)
Definition parameter_type (t : Template) (name : string) : option Expr :=
  match parameters t !! name with
  | Some parameter => kwget "Type" (decl_properties parameter)
  | None => None
  end.

(** A resolved [Allow] statement of a policy document. *)
Definition allow (action resource : string) : Json :=
  JDict [ ("Effect", JStr "Allow");
          ("Action", JList [ JStr action ]);
          ("Resource", JStr resource) ].

Definition is_bucket (kv : string * AWSObject) : Prop :=
  resource_type (snd kv) = "AWS::S3::Bucket".

Definition is_distribution (kv : string * AWSObject) : Prop :=
  resource_type (snd kv) = "AWS::CloudFront::Distribution".

#[global] Instance is_bucket_dec kv : Decision (is_bucket kv) :=
  decide (resource_type (snd kv) = "AWS::S3::Bucket").

#[global] Instance is_distribution_dec kv : Decision (is_distribution kv) :=
  decide (resource_type (snd kv) = "AWS::CloudFront::Distribution").

(** ** References between declarations *)

(** What an expression points at: a parameter or resource through [Ref], a
    resource through [Fn::GetAtt], a condition through [Fn::If]. *)
Inductive Reference : Type :=
  | ToRef (name : string)
  | ToAtt (logicalName : string)
  | ToCondition (name : string).

Fixpoint references (e : Expr) : list Reference :=
  match e with
  | Str _ => []
  | Bool _ => []
  | List xs =>
      (fix items (xs : list Expr) : list Reference :=
         match xs with
         | [] => []
         | x :: rest => (references x ++ items rest)%list
         end) xs
  | Dict kw =>
      (fix fields (kw : list (string * Expr)) : list Reference :=
         match kw with
         | [] => []
         | (_, x) :: rest => (references x ++ fields rest)%list
         end) kw
  | Ref name => [ ToRef name ]
  | GetAtt logicalName _ => [ ToAtt logicalName ]
  | Join _ values => references values
  | Split _ values => references values
  | If cond true_value false_value =>
      ToCondition cond
      :: (references true_value ++ references false_value)%list
  | Equals value_one value_two =>
      (references value_one ++ references value_two)%list
  end.

(** Is the target of a reference declared in the template? [AWS::NoValue]
    is a pseudo parameter and needs no declaration. *)
Definition declared_in (t : Template) (r : Reference) : bool :=
  match r with
  | ToRef name =>
      String.eqb name "AWS::NoValue"
      || bool_decide (is_Some (resources t !! name))
      || bool_decide (is_Some (parameters t !! name))
  | ToAtt logicalName => bool_decide (is_Some (resources t !! logicalName))
  | ToCondition name => bool_decide (is_Some (conditions t !! name))
  end.

(** ** An instance of the collaborators

    The commercial partition prefix, and a domain given by the two template
    parameters [DomainName] and [DomainNameAlternates] with the condition
    [NoAlternateDomains]. *)
Definition example_assets (environ : gmap string string) : M Assets :=
  assets (Str "arn:aws") (Ref "DomainName") (Ref "DomainNameAlternates")
    "NoAlternateDomains" environ.

(** A stack of that template: [example.com] with two alternates, and the
    given values of the two media parameters. *)
Definition example_stack (alias arn : string) : Stack :=
  {| refs :=
       {[ "DomainName" := JStr "example.com";
          "DomainNameAlternates" := JList [ JStr "alt1.com"; JStr "alt2.com" ];
          "AssetsBucket" := JStr "stack-assetsbucket-1";
          "PrivateAssetsBucket" := JStr "stack-privateassetsbucket-1";
          "DistributionAliases" := JList [ JStr "static.example.com" ];
          "MediaDistributionAlias" := JStr alias;
          "MediaAcmCertificateArn" := JStr arn ]};
     atts :=
       {[ ("AssetsBucket", "DomainName") :=
            JStr "stack-assetsbucket-1.s3.amazonaws.com";
          ("PrivateAssetsBucket", "DomainName") :=
            JStr "stack-privateassetsbucket-1.s3.amazonaws.com" ]} |}.

(** The accumulator as a domain collaborator of that kind leaves it: the
    two parameters and the condition, true when the alternates join to the
    empty string. *)
Definition example_domain_template : Template :=
  {| resources := ∅;
     outputs := ∅;
     parameters :=
       {[ "DomainName" := Parameter_ "DomainName" [ ("Type", Str "String") ];
          "DomainNameAlternates" :=
            Parameter_ "DomainNameAlternates"
              [ ("Type", Str "CommaDelimitedList") ] ]};
     conditions :=
       {[ "NoAlternateDomains" :=
            Equals (Join "" (Ref "DomainNameAlternates")) (Str "") ]} |}.

(** Does the character occur in the string? *)
Fixpoint has_char (c : ascii) (s : string) : bool :=
  match s with
  | EmptyString => false
  | String a rest => if ascii_dec c a then true else has_char c rest
  end.

(** ** Joining and splitting on a one-character delimiter *)

Section split_join.
Variable c : ascii.
Let delim : string := String c "".

Lemma string_app_cons (a : ascii) (s1 s2 : string) :
  String a s1 +:+ s2 = String a (s1 +:+ s2).
Proof. reflexivity. Qed.

Lemma string_app_nil_l (s : string) : "" +:+ s = s.
Proof. reflexivity. Qed.

Lemma string_app_assoc (s1 s2 s3 : string) :
  (s1 +:+ s2) +:+ s3 = s1 +:+ (s2 +:+ s3).
Proof.
  induction s1 as [|a s1 IH]; [reflexivity|].
  by rewrite !string_app_cons, IH.
Qed.

Lemma string_app_nil_r (s : string) : s +:+ "" = s.
Proof.
  induction s as [|a s IH]; [reflexivity|].
  by rewrite string_app_cons, IH.
Qed.

Lemma has_char_app (s1 s2 : string) :
  has_char c (s1 +:+ s2) = has_char c s1 || has_char c s2.
Proof.
  induction s1 as [|a s1 IH]; [reflexivity|].
  rewrite string_app_cons. simpl.
  destruct (ascii_dec c a); [reflexivity | exact IH].
Qed.

(** A piece without the delimiter is never cut. *)
Lemma split_from_whole (cur s : string) :
  has_char c s = false -> split_from delim 0 cur s = [cur +:+ s].
Proof.
  revert cur. induction s as [|a s IH]; intros cur Hs; simpl in *.
  - by rewrite string_app_nil_r.
  - destruct (ascii_dec c a); [discriminate|].
    rewrite IH by assumption. by rewrite string_app_assoc.
Qed.

(** The first cut is at the first delimiter. *)
Lemma split_from_cut (cur s rest : string) :
  has_char c s = false ->
  split_from delim 0 cur (s +:+ delim +:+ rest)
  = (cur +:+ s) :: split_from delim 0 "" rest.
Proof.
  revert cur. induction s as [|a s IH]; intros cur Hs.
  - rewrite string_app_nil_l, string_app_nil_r.
    unfold delim. rewrite string_app_cons, string_app_nil_l. simpl.
    destruct (ascii_dec c c); [|congruence].
    by destruct rest.
  - simpl in Hs. destruct (ascii_dec c a) as [|Hne]; [discriminate|].
    rewrite string_app_cons. simpl.
    destruct (ascii_dec c a); [contradiction|].
    rewrite IH by assumption. by rewrite string_app_assoc.
Qed.

(** Splitting a joined list gives the list back, when no element holds the
    delimiter. (The empty list is another matter: it joins to the empty
    string, which splits to one empty piece.) *)
Lemma split_join (x : string) (xs : list string) :
  Forall (fun s => has_char c s = false) (x :: xs) ->
  split delim (join delim (x :: xs)) = x :: xs.
Proof.
  unfold split. revert x. induction xs as [|y ys IH]; intros x Hall.
  - simpl. rewrite split_from_whole; [reflexivity|].
    by inversion Hall.
  - inversion Hall as [|? ? Hx Hrest]; subst.
    change (join delim (x :: y :: ys))
      with (x +:+ delim +:+ join delim (y :: ys)).
    rewrite split_from_cut by assumption.
    rewrite string_app_nil_l. f_equal. by apply IH.
Qed.
End split_join.

(** ** The CORS allow-list *)

Lemma strings_of_fmap (ss : list string) : strings_of (JStr <$> ss) = Some ss.
Proof.
  induction ss as [|s ss IH]; [reflexivity|].
  rewrite fmap_cons. cbn [strings_of]. by rewrite IH.
Qed.

(** Joining the alternates with [";https://"] and putting ["https://"] in
    front is joining the prefixed alternates with [";"]. *)
Lemma join_alternates (a : string) (alts : list string) :
  "https://" +:+ join ";https://" (a :: alts)
  = join ";" (String.append "https://" <$> (a :: alts)).
Proof.
  revert a. induction alts as [|b alts IH]; intros a; [reflexivity|].
  change (join ";https://" (a :: b :: alts))
    with (a +:+ ";" +:+ "https://" +:+ join ";https://" (b :: alts)).
  rewrite IH. change (String.append "https://" <$> (a :: b :: alts))
    with (("https://" +:+ a) :: (String.append "https://" <$> (b :: alts))).
  change (join ";" (("https://" +:+ a) :: (String.append "https://" <$> (b :: alts))))
    with (("https://" +:+ a) +:+ ";" +:+ join ";" (String.append "https://" <$> (b :: alts))).
  by rewrite string_app_assoc.
Qed.

(** The string the module hands to [Split]. *)
Lemma origins_string (d : string) (alts : list string) :
  join "" [ "https://"; d;
            if bool_decide (alts = []) then "" else ";https://";
            join ";https://" alts ]
  = join ";" (("https://" +:+ d) :: (String.append "https://" <$> alts)).
Proof.
  destruct alts as [|a alts].
  - change (("https://" +:+ d) +:+ "" = "https://" +:+ d).
    apply string_app_nil_r.
  - rewrite bool_decide_eq_false_2 by discriminate.
    change (("https://" +:+ d) +:+ ";" +:+ "https://" +:+ join ";https://" (a :: alts)
            = ("https://" +:+ d) +:+ ";" +:+ join ";" (String.append "https://" <$> (a :: alts))).
    by rewrite join_alternates.
Qed.

Lemma has_char_https (c : ascii) (s : string) :
  has_char c "https://" = false ->
  has_char c s = false -> has_char c ("https://" +:+ s) = false.
Proof. intros H1 H2. by rewrite has_char_app, H1, H2. Qed.

Section cors.
Variable domain_name domain_name_alternates : Expr.
Variable no_alt_domains : string.

(** C1. For a primary domain [d] and alternate domains [alts] (names, so
    free of the [;] the module separates them with), the allowed origins
    CloudFormation computes for the bucket configuration are
    ["https://" + d] followed by ["https://" + a] for each alternate, in
    order; with no alternate the list is the single origin of the primary
    domain. *)
Theorem cors_origins_resolved (st : Stack) (conds : gmap string bool)
    (d : string) (alts : list string) :
  resolve st conds domain_name = Value (JStr d) ->
  resolve st conds domain_name_alternates = Value (JList (JStr <$> alts)) ->
  conds !! no_alt_domains = Some (bool_decide (alts = [])) ->
  has_char ";" d = false ->
  Forall (fun a => has_char ";" a = false) alts ->
  resolve st conds <$>
    cors_allowed_origins
      (common_bucket_conf domain_name domain_name_alternates no_alt_domains)
  = Some (Value (JList
      (JStr <$> ("https://" +:+ d) :: (String.append "https://" <$> alts)))).
Proof.
  intros Hd Halts Hcond Hsd Hsalts.
  change (cors_allowed_origins _)
    with (Some (Split ";" (Join "" (List
            [ Str "https://"; domain_name;
              If no_alt_domains (Str "") (Str ";https://");
              Join ";https://" domain_name_alternates ])))).
  simpl. rewrite Hd, Halts, Hcond, strings_of_fmap.
  replace (match bool_decide (alts = []) with
           | true => Value (JStr "")
           | false => Value (JStr ";https://")
           end)
    with (Value (JStr (if bool_decide (alts = []) then "" else ";https://")))
    by (by destruct (bool_decide (alts = []))).
  cbn [jlist strings_of].
  rewrite origins_string.
  rewrite (split_join ";"%char).
  - reflexivity.
  - constructor.
    + by apply has_char_https.
    + apply Forall_fmap. eapply Forall_impl; [exact Hsalts|].
      intros a Ha. by apply has_char_https.
Qed.
End cors.

(** ** The environment gate *)

Lemma environ_ne_true (environ : gmap string string) (key value : string) :
  environ !! key ≠ Some value -> environ_ne environ key value = true.
Proof.
  unfold environ_ne. intros Hne. destruct (environ !! key) as [v|]; [|done].
  destruct (String.eqb_spec v value); [congruence | done].
Qed.

Lemma environ_ne_false (environ : gmap string string) (key value : string) :
  environ !! key = Some value -> environ_ne environ key value = false.
Proof. unfold environ_ne. intros ->. by rewrite String.eqb_refl. Qed.

(** Run the module's registrations; the accumulator is read through its
    projections at each step, so evaluation shares it. *)
Ltac run_assets :=
  lazy [bind ret add_resource add_output add_parameter add_condition
        fst snd resources outputs parameters conditions
        assets_bucket private_assets_bucket assets_management_policy
        distribution media_distribution title decl_title
        Bucket Distribution mk_resource Output Parameter_
        Ref_resource Ref_parameter GetAtt_resource].

(** Read a key of a registry after a series of registrations. *)
Ltac lookup_registered :=
  repeat (rewrite lookup_insert_eq || rewrite lookup_insert_ne by done).

Section fragment.
Variable arn_prefix : Expr.
Variable domain_name domain_name_alternates : Expr.
Variable no_alt_domains : string.

Abbreviation run := (assets arn_prefix domain_name domain_name_alternates
                   no_alt_domains).

(** C3. With [USE_GOVCLOUD] set to [on] the module registers no parameter
    and no condition, no resource besides the two buckets and no output
    besides the two bucket domain names, and binds [distribution] to
    [None]; the policy is the one built in any other environment. *)
Theorem govcloud_suppresses_distributions
    (environ : gmap string string) (t0 : Template) :
  environ !! "USE_GOVCLOUD" = Some "on" ->
  let m := fst (run environ t0) in
  let t := snd (run environ t0) in
  parameters t = parameters t0
  /\ conditions t = conditions t0
  /\ resources t
     = <["PrivateAssetsBucket" := private_assets_bucket m]>
         (<["AssetsBucket" := assets_bucket m]> (resources t0))
  /\ resource_type (assets_bucket m) = "AWS::S3::Bucket"
  /\ resource_type (private_assets_bucket m) = "AWS::S3::Bucket"
  /\ outputs t
     = <["PrivateAssetsBucketDomainName" :=
           Output "PrivateAssetsBucketDomainName"
             [ ("Description", Str "Private assets bucket domain name");
               ("Value", GetAtt "PrivateAssetsBucket" "DomainName") ]]>
         (<["AssetsBucketDomainName" :=
              Output "AssetsBucketDomainName"
                [ ("Description", Str "Assets bucket domain name");
                  ("Value", GetAtt "AssetsBucket" "DomainName") ]]>
            (outputs t0))
  /\ distribution m = None
  /\ media_distribution m = None
  /\ forall environ' t0',
       assets_management_policy (fst (run environ' t0'))
       = assets_management_policy m.
Proof.
  intros Hon m t. subst m t. unfold assets.
  rewrite (environ_ne_false _ _ _ Hon).
  do 8 (split; [run_assets; reflexivity|]).
  intros environ' t0'. destruct (environ_ne environ' _ _); reflexivity.
Qed.

(** C10. The gate compares [USE_GOVCLOUD] with the exact string [on]. Only
    that value leaves parameters and conditions untouched, registers no
    distribution and no distribution output; unset, or with any other
    value ([ON], [true], [1], ...), the two distributions, the three
    parameters, the condition and the distribution domain-name output are
    all registered. *)
Theorem govcloud_gate_exact (environ : gmap string string) (t0 : Template) :
  let m := fst (run environ t0) in
  let t := snd (run environ t0) in
  if decide (environ !! "USE_GOVCLOUD" = Some "on") then
    parameters t = parameters t0
    /\ conditions t = conditions t0
    /\ resources t
       = <["PrivateAssetsBucket" := private_assets_bucket m]>
           (<["AssetsBucket" := assets_bucket m]> (resources t0))
    /\ outputs t !! "AssetsDistributionDomainName"
       = outputs t0 !! "AssetsDistributionDomainName"
    /\ distribution m = None
    /\ media_distribution m = None
  else
    (exists d, distribution m = Some d
       /\ resources t !! "AssetsDistribution" = Some d
       /\ resource_type d = "AWS::CloudFront::Distribution")
    /\ (exists d, media_distribution m = Some d
       /\ resources t !! "MediaAssetsDistribution" = Some d
       /\ resource_type d = "AWS::CloudFront::Distribution")
    /\ is_Some (parameters t !! "DistributionAliases")
    /\ is_Some (parameters t !! "MediaDistributionAlias")
    /\ is_Some (parameters t !! "MediaAcmCertificateArn")
    /\ is_Some (conditions t !! "NoMediaDistributionAlias")
    /\ outputs t !! "AssetsDistributionDomainName"
       = Some (Output "AssetsDistributionDomainName"
                 [ ("Description", Str "The assest CDN domain name");
                   ("Value", GetAtt "AssetsDistribution" "DomainName") ]).
Proof.
  intros m t. subst m t. unfold assets.
  destruct (decide (environ !! "USE_GOVCLOUD" = Some "on")) as [Hon|Hoff].
  - rewrite (environ_ne_false _ _ _ Hon). run_assets.
    do 3 (split; [reflexivity|]).
    split; [by lookup_registered|].
    split; reflexivity.
  - rewrite (environ_ne_true _ _ _ Hoff). run_assets.
    split.
    { eexists. split; [reflexivity|]. split; [|reflexivity].
      by lookup_registered. }
    split.
    { eexists. split; [reflexivity|]. split; [|reflexivity].
      by lookup_registered. }
    split; [by lookup_registered|].
    split; [by lookup_registered|].
    split; [by lookup_registered|].
    split; [by lookup_registered|].
    by lookup_registered.
Qed.

(** C2. The policy document holds four [Allow] statements: for the assets
    bucket [s3:ListBucket] on [<prefix>:s3:::<bucket>] and [s3:*] on
    [<prefix>:s3:::<bucket>/*], then the same pair for the private assets
    bucket; [Ref] of a bucket resolves to its name. *)
Theorem policy_statements (environ : gmap string string) (t0 : Template)
    (st : Stack) (conds : gmap string bool) (prefix b1 b2 : string) :
  resolve st conds arn_prefix = Value (JStr prefix) ->
  refs st !! "AssetsBucket" = Some (JStr b1) ->
  refs st !! "PrivateAssetsBucket" = Some (JStr b2) ->
  resolve st conds (assets_management_policy (fst (run environ t0)))
  = Value (JDict
      [ ("PolicyName", JStr "AssetsManagementPolicy");
        ("PolicyDocument", JDict
          [ ("Statement", JList
              [ allow "s3:ListBucket" (prefix +:+ ":s3:::" +:+ b1);
                allow "s3:*" (prefix +:+ ":s3:::" +:+ b1 +:+ "/*");
                allow "s3:ListBucket" (prefix +:+ ":s3:::" +:+ b2);
                allow "s3:*" (prefix +:+ ":s3:::" +:+ b2 +:+ "/*") ]) ]) ]).
Proof.
  intros Hprefix Hb1 Hb2. unfold assets.
  destruct (environ_ne environ _ _); run_assets;
    unfold iam_Policy, dict; cbn [resolve]; rewrite Hprefix;
    cbn [String.eqb Ascii.eqb Bool.eqb]; rewrite Hb1, Hb2;
    cbn [jlist strings_of join jdict]; unfold allow;
    by rewrite !string_app_nil_l.
Qed.

(** C6. Outside GovCloud both conditions of the media distribution are
    registered under the one name [NoMediaDistributionAlias]: the
    accumulator gains that single condition, its predicate is the test
    registered last (the certificate ARN is empty), and both the [Aliases]
    and the [ViewerCertificate] gate of the media distribution read it. *)
Theorem media_conditions_share_name
    (environ : gmap string string) (t0 : Template) :
  environ !! "USE_GOVCLOUD" ≠ Some "on" ->
  let m := fst (run environ t0) in
  let t := snd (run environ t0) in
  conditions t
  = <["NoMediaDistributionAlias" :=
        Equals (Ref "MediaAcmCertificateArn") (Str "")]>
      (<["NoMediaDistributionAlias" :=
           Equals (Ref "MediaDistributionAlias") (Str "")]> (conditions t0))
  /\ conditions t
     = <["NoMediaDistributionAlias" :=
           Equals (Ref "MediaAcmCertificateArn") (Str "")]> (conditions t0)
  /\ dom (conditions t) = {[ "NoMediaDistributionAlias" ]} ∪ dom (conditions t0)
  /\ conditions t !! "NoMediaDistributionAlias"
     = Some (Equals (Ref "MediaAcmCertificateArn") (Str ""))
  /\ config_field (media_distribution m) "Aliases"
     = Some (If "NoMediaDistributionAlias"
               (Ref "AWS::NoValue")
               (List [ Ref "MediaDistributionAlias" ]))
  /\ config_field (media_distribution m) "ViewerCertificate"
     = Some (If "NoMediaDistributionAlias"
               (Ref "AWS::NoValue")
               (ViewerCertificate
                  [ ("AcmCertificateArn", Ref "MediaAcmCertificateArn");
                    ("SslSupportMethod", Str "sni-only") ])).
Proof.
  intros Hoff m t. subst m t. unfold assets.
  rewrite (environ_ne_true _ _ _ Hoff). run_assets.
  split; [reflexivity|]. rewrite insert_insert_eq.
  split; [reflexivity|]. split; [by rewrite dom_insert_L|].
  split; [by lookup_registered|].
  split; reflexivity.
Qed.

(** C8. Outside GovCloud each distribution has one origin, which is the
    domain name of its bucket (the assets bucket for [AssetsDistribution],
    the private assets bucket for [MediaAssetsDistribution]); its default
    cache behavior forwards query strings and the headers [Origin],
    [Access-Control-Request-Headers] and [Access-Control-Request-Method], and
    its viewer protocol policy is [allow-all]. *)
Theorem distributions_shape (environ : gmap string string) (t0 : Template) :
  environ !! "USE_GOVCLOUD" ≠ Some "on" ->
  let m := fst (run environ t0) in
  let t := snd (run environ t0) in
  let shape (bucket : string) (d : option AWSObject) :=
    config_field d "Origins"
    = Some (List
        [ Dict [ ("Id", Str "Assets");
                 ("DomainName", GetAtt bucket "DomainName");
                 ("S3OriginConfig",
                   Dict [ ("OriginAccessIdentity", Str "") ]) ] ])
    /\ behavior_field d "ForwardedValues"
       = Some (Dict
           [ ("QueryString", Bool true);
             ("Headers", List [ Str "Origin";
                                Str "Access-Control-Request-Headers";
                                Str "Access-Control-Request-Method" ]) ])
    /\ behavior_field d "ViewerProtocolPolicy" = Some (Str "allow-all") in
  resources t !! "AssetsDistribution" = distribution m
  /\ resources t !! "MediaAssetsDistribution" = media_distribution m
  /\ resources t !! "AssetsBucket" = Some (assets_bucket m)
  /\ resources t !! "PrivateAssetsBucket" = Some (private_assets_bucket m)
  /\ resource_type (assets_bucket m) = "AWS::S3::Bucket"
  /\ resource_type (private_assets_bucket m) = "AWS::S3::Bucket"
  /\ shape "AssetsBucket" (distribution m)
  /\ shape "PrivateAssetsBucket" (media_distribution m).
Proof.
  intros Hoff m t shape. subst m t shape. unfold assets.
  rewrite (environ_ne_true _ _ _ Hoff). run_assets.
  do 4 (split; [by lookup_registered|]).
  do 2 (split; [reflexivity|]).
  split; (split; [reflexivity|]; split; reflexivity).
Qed.

(** C9. In every environment the module registers two buckets,
    [AssetsBucket] with [PublicRead] access control and
    [PrivateAssetsBucket] with [Private]; apart from the access control the
    two declarations carry the same keywords: deletion policy [Retain],
    versioning status [Enabled] and the CORS configuration of
    [common_bucket_conf]. From an empty accumulator they are the only
    buckets of the template. *)
Theorem buckets_differ_in_access_only
    (environ : gmap string string) (t0 : Template) :
  let m := fst (run environ t0) in
  let t := snd (run environ t0) in
  let conf :=
    common_bucket_conf domain_name domain_name_alternates no_alt_domains in
  let rest (b : AWSObject) :=
    List.filter (fun kv => negb (String.eqb (fst kv) "AccessControl"))
      (properties b) in
  resources t !! "AssetsBucket" = Some (assets_bucket m)
  /\ resources t !! "PrivateAssetsBucket" = Some (private_assets_bucket m)
  /\ filter is_bucket (resources (snd (run environ empty_template)))
     = {[ "AssetsBucket" := assets_bucket m;
          "PrivateAssetsBucket" := private_assets_bucket m ]}
  /\ kwget "AccessControl" (properties (assets_bucket m))
     = Some (Str "PublicRead")
  /\ kwget "AccessControl" (properties (private_assets_bucket m))
     = Some (Str "Private")
  /\ rest (assets_bucket m) = rest (private_assets_bucket m)
  /\ attributes (assets_bucket m) = attributes (private_assets_bucket m)
  /\ attributes (assets_bucket m) = [ ("DeletionPolicy", Str "Retain") ]
  /\ rest (assets_bucket m)
     = List.filter (fun kv => negb (is_attribute kv)) conf
  /\ rest (assets_bucket m)
     = [ ("VersioningConfiguration", Dict [ ("Status", Str "Enabled") ]);
         ("CorsConfiguration", Dict
           [ ("CorsRules", List [ Dict
               [ ("AllowedOrigins",
                   Split ";" (Join "" (List
                     [ Str "https://"; domain_name;
                       If no_alt_domains (Str "") (Str ";https://");
                       Join ";https://" domain_name_alternates ])));
                 ("AllowedMethods",
                   List [ Str "POST"; Str "PUT"; Str "HEAD"; Str "GET" ]);
                 ("AllowedHeaders", List [ Str "*" ]) ] ]) ]) ]
  /\ kwget "VersioningConfiguration" (properties (assets_bucket m))
     = Some (Dict [ ("Status", Str "Enabled") ])
  /\ kwget "VersioningConfiguration" (properties (private_assets_bucket m))
     = Some (Dict [ ("Status", Str "Enabled") ])
  /\ attributes (private_assets_bucket m) = [ ("DeletionPolicy", Str "Retain") ]
  /\ kwget "CorsConfiguration" (properties (assets_bucket m))
     = kwget "CorsConfiguration" conf
  /\ is_Some (cors_allowed_origins conf).
Proof.
  intros m t conf rest. subst m t conf rest. unfold assets.
  destruct (environ_ne environ _ _); run_assets;
    (split; [by lookup_registered|]);
    (split; [by lookup_registered|]);
    (split; [vm_compute; reflexivity|]);
    do 11 (split; [reflexivity|]); by eexists.
Qed.

(** The media distribution as CloudFormation resolves it, given the values
    of the two media parameters and the domain name of the private bucket.
    The single condition [NoMediaDistributionAlias] is the certificate test,
    so both gated properties follow the certificate ARN. *)
Lemma media_distribution_resolved (environ : gmap string string)
    (t0 : Template) (st : Stack) (alias arn : string) (domain : Json) :
  environ !! "USE_GOVCLOUD" ≠ Some "on" ->
  refs st !! "MediaDistributionAlias" = Some (JStr alias) ->
  refs st !! "MediaAcmCertificateArn" = Some (JStr arn) ->
  atts st !! ("PrivateAssetsBucket", "DomainName") = Some domain ->
  exists d, media_distribution (fst (run environ t0)) = Some d
  /\ resolve_resource st (snd (run environ t0)) d
     = Value (JDict [ ("DistributionConfig", JDict (
         (if String.eqb arn "" then []
          else [ ("Aliases", JList [ JStr alias ]) ])
         ++ [ ("Origins", JList [ JDict
                [ ("Id", JStr "Assets");
                  ("DomainName", domain);
                  ("S3OriginConfig",
                    JDict [ ("OriginAccessIdentity", JStr "") ]) ] ]);
              ("DefaultCacheBehavior", JDict
                [ ("TargetOriginId", JStr "Assets");
                  ("ForwardedValues", JDict
                    [ ("QueryString", JBool true);
                      ("Headers", JList
                        [ JStr "Origin";
                          JStr "Access-Control-Request-Headers";
                          JStr "Access-Control-Request-Method" ]) ]);
                  ("ViewerProtocolPolicy", JStr "allow-all") ]);
              ("Enabled", JBool true) ]
         ++ (if String.eqb arn "" then []
             else [ ("ViewerCertificate", JDict
                      [ ("AcmCertificateArn", JStr arn);
                        ("SslSupportMethod", JStr "sni-only") ]) ]))) ]).
Proof.
  intros Hoff Halias Harn Hdomain. unfold assets.
  rewrite (environ_ne_true _ _ _ Hoff). run_assets.
  eexists. split; [reflexivity|].
  unfold resolve_resource, resolve_in.
  match goal with
  | |- resolve st ?c _ = _ =>
      assert (c !! "NoMediaDistributionAlias" = Some (String.eqb arn ""))
        as Hcond; [|generalize dependent c; intros conds Hcond]
  end.
  { unfold condition_values. cbn [conditions].
    rewrite lookup_omap. lookup_registered.
    cbn [mbind option_bind]. unfold condition_value. cbn [resolve].
    cbn [String.eqb Ascii.eqb Bool.eqb]. by rewrite Harn. }
  cbn [List.filter is_attribute existsb resource_attributes fst negb orb
       String.eqb Ascii.eqb Bool.eqb].
  unfold DistributionConfig, Origin, S3Origin, DefaultCacheBehavior,
    ForwardedValues, ViewerCertificate.
  cbn [properties resolve]. cbn [String.eqb Ascii.eqb Bool.eqb].
  rewrite Hcond, Halias, Harn, Hdomain.
  by destruct (String.eqb arn "").
Qed.

(** C5. Outside GovCloud, in a stack whose certificate-ARN parameter is
    empty the resolved media distribution has no [ViewerCertificate]; in a
    stack where it is not empty the distribution has exactly one, with
    [SslSupportMethod] [sni-only] and the parameter's value as
    [AcmCertificateArn]. *)
Theorem media_certificate_binding (environ : gmap string string)
    (t0 : Template) (st : Stack) (alias arn : string) (domain : Json) :
  environ !! "USE_GOVCLOUD" ≠ Some "on" ->
  refs st !! "MediaDistributionAlias" = Some (JStr alias) ->
  refs st !! "MediaAcmCertificateArn" = Some (JStr arn) ->
  atts st !! ("PrivateAssetsBucket", "DomainName") = Some domain ->
  exists d config,
    media_distribution (fst (run environ t0)) = Some d
    /\ resolve_resource st (snd (run environ t0)) d
       = Value (JDict [ ("DistributionConfig", JDict config) ])
    /\ bindings "ViewerCertificate" config
       = if String.eqb arn "" then []
         else [ ("ViewerCertificate", JDict
                  [ ("AcmCertificateArn", JStr arn);
                    ("SslSupportMethod", JStr "sni-only") ]) ].
Proof.
  intros Hoff Halias Harn Hdomain.
  destruct (media_distribution_resolved environ t0 st alias arn domain)
    as (d & Hd & Hresolved); try assumption.
  exists d. eexists. split; [exact Hd|]. split; [exact Hresolved|].
  by destruct (String.eqb arn "").
Qed.

(** C7, as the module has it. Outside GovCloud the module registers three
    parameters: [DistributionAliases], a comma-delimited list, for the
    primary distribution, and the strings [MediaDistributionAlias] and
    [MediaAcmCertificateArn] for the media distribution; and two
    distributions, [AssetsDistribution] and [MediaAssetsDistribution]. *)
Theorem distribution_declarations
    (environ : gmap string string) (t0 : Template) :
  environ !! "USE_GOVCLOUD" ≠ Some "on" ->
  let m := fst (run environ t0) in
  let t := snd (run environ t0) in
  let fresh := snd (run environ empty_template) in
  dom (parameters t)
  = {[ "DistributionAliases"; "MediaDistributionAlias";
       "MediaAcmCertificateArn" ]} ∪ dom (parameters t0)
  /\ dom (parameters fresh)
     = {[ "DistributionAliases"; "MediaDistributionAlias";
          "MediaAcmCertificateArn" ]}
  /\ size (parameters fresh) = 3
  /\ parameter_type t "DistributionAliases" = Some (Str "CommaDelimitedList")
  /\ parameter_type t "MediaDistributionAlias" = Some (Str "String")
  /\ parameter_type t "MediaAcmCertificateArn" = Some (Str "String")
  /\ dom (filter is_distribution (resources fresh))
     = {[ "AssetsDistribution"; "MediaAssetsDistribution" ]}
  /\ size (filter is_distribution (resources fresh)) = 2
  /\ resources t !! "AssetsDistribution" = distribution m
  /\ resources t !! "MediaAssetsDistribution" = media_distribution m
  /\ is_Some (distribution m)
  /\ is_Some (media_distribution m).
Proof.
  intros Hoff m t fresh. subst m t fresh. unfold assets, parameter_type.
  rewrite (environ_ne_true _ _ _ Hoff). run_assets.
  split.
  { rewrite !dom_insert_L. apply set_eq. intros x.
    rewrite !elem_of_union, !elem_of_singleton. tauto. }
  split; [vm_compute; reflexivity|].
  split; [vm_compute; reflexivity|].
  do 3 (split; [by lookup_registered|]).
  split; [vm_compute; reflexivity|].
  split; [vm_compute; reflexivity|].
  do 2 (split; [by lookup_registered|]).
  split; by eexists.
Qed.
End fragment.

(** ** The properties at the example instance *)

Lemma cors_origins_resolved_witness :
  resolve (example_stack "" "") {[ "NoAlternateDomains" := false ]} <$>
    cors_allowed_origins
      (common_bucket_conf (Ref "DomainName") (Ref "DomainNameAlternates")
         "NoAlternateDomains")
  = Some (Value (JList [ JStr "https://example.com";
                         JStr "https://alt1.com";
                         JStr "https://alt2.com" ])).
Proof.
  apply (cors_origins_resolved (Ref "DomainName") (Ref "DomainNameAlternates")
           "NoAlternateDomains" (example_stack "" "")
           {[ "NoAlternateDomains" := false ]}
           "example.com" [ "alt1.com"; "alt2.com" ]).
  - reflexivity.
  - reflexivity.
  - reflexivity.
  - reflexivity.
  - repeat constructor.
Defined.

(** Without alternates the list is the primary origin alone. *)
Example cors_origins_no_alternates :
  resolve {| refs := {[ "DomainName" := JStr "example.com";
                        "DomainNameAlternates" := JList [] ]};
             atts := ∅ |}
          {[ "NoAlternateDomains" := true ]} <$>
    cors_allowed_origins
      (common_bucket_conf (Ref "DomainName") (Ref "DomainNameAlternates")
         "NoAlternateDomains")
  = Some (Value (JList [ JStr "https://example.com" ])).
Proof. reflexivity. Qed.

(** A value holding the separator is cut by [Split]: the hypothesis of
    [cors_origins_resolved] on [;] is needed. *)
Example cors_origins_cut_at_separator :
  resolve {| refs := {[ "DomainName" := JStr "a;b";
                        "DomainNameAlternates" := JList [] ]};
             atts := ∅ |}
          {[ "NoAlternateDomains" := true ]} <$>
    cors_allowed_origins
      (common_bucket_conf (Ref "DomainName") (Ref "DomainNameAlternates")
         "NoAlternateDomains")
  = Some (Value (JList [ JStr "https://a"; JStr "b" ])).
Proof. reflexivity. Qed.

Lemma policy_statements_witness :
  resolve (example_stack "" "") ∅
    (assets_management_policy (fst (example_assets ∅ empty_template)))
  = Value (JDict
      [ ("PolicyName", JStr "AssetsManagementPolicy");
        ("PolicyDocument", JDict
          [ ("Statement", JList
              [ allow "s3:ListBucket" "arn:aws:s3:::stack-assetsbucket-1";
                allow "s3:*" "arn:aws:s3:::stack-assetsbucket-1/*";
                allow "s3:ListBucket" "arn:aws:s3:::stack-privateassetsbucket-1";
                allow "s3:*" "arn:aws:s3:::stack-privateassetsbucket-1/*" ]) ]) ]).
Proof.
  apply (policy_statements (Str "arn:aws") (Ref "DomainName")
           (Ref "DomainNameAlternates") "NoAlternateDomains" ∅ empty_template
           (example_stack "" "") ∅ "arn:aws"
           "stack-assetsbucket-1" "stack-privateassetsbucket-1");
    reflexivity.
Defined.

Lemma govcloud_suppresses_distributions_witness :
  parameters (snd (example_assets {[ "USE_GOVCLOUD" := "on" ]} empty_template))
  = ∅
  /\ conditions (snd (example_assets {[ "USE_GOVCLOUD" := "on" ]} empty_template))
     = ∅
  /\ distribution (fst (example_assets {[ "USE_GOVCLOUD" := "on" ]} empty_template))
     = None.
Proof.
  destruct (govcloud_suppresses_distributions (Str "arn:aws") (Ref "DomainName")
              (Ref "DomainNameAlternates") "NoAlternateDomains"
              {[ "USE_GOVCLOUD" := "on" ]} empty_template)
    as (Hp & Hc & _ & _ & _ & _ & Hd & _); [reflexivity|].
  exact (conj Hp (conj Hc Hd)).
Defined.

Lemma media_certificate_binding_witness :
  exists d config,
    media_distribution (fst (example_assets ∅ empty_template)) = Some d
    /\ resolve_resource
         (example_stack "media.example.com"
            "arn:aws:acm:us-east-1:111122223333:certificate/media")
         (snd (example_assets ∅ empty_template)) d
       = Value (JDict [ ("DistributionConfig", JDict config) ])
    /\ bindings "ViewerCertificate" config
       = [ ("ViewerCertificate", JDict
             [ ("AcmCertificateArn",
                 JStr "arn:aws:acm:us-east-1:111122223333:certificate/media");
               ("SslSupportMethod", JStr "sni-only") ]) ].
Proof.
  apply (media_certificate_binding (Str "arn:aws") (Ref "DomainName")
           (Ref "DomainNameAlternates") "NoAlternateDomains" ∅ empty_template
           (example_stack "media.example.com"
              "arn:aws:acm:us-east-1:111122223333:certificate/media")
           "media.example.com"
           "arn:aws:acm:us-east-1:111122223333:certificate/media"
           (JStr "stack-privateassetsbucket-1.s3.amazonaws.com")).
  - discriminate.
  - reflexivity.
  - reflexivity.
  - reflexivity.
Defined.

Lemma media_conditions_share_name_witness :
  conditions (snd (example_assets ∅ empty_template))
  = {[ "NoMediaDistributionAlias" :=
         Equals (Ref "MediaAcmCertificateArn") (Str "") ]}
  /\ config_field (media_distribution (fst (example_assets ∅ empty_template)))
       "Aliases"
     = Some (If "NoMediaDistributionAlias"
               (Ref "AWS::NoValue")
               (List [ Ref "MediaDistributionAlias" ])).
Proof.
  destruct (media_conditions_share_name (Str "arn:aws") (Ref "DomainName")
              (Ref "DomainNameAlternates") "NoAlternateDomains"
              ∅ empty_template)
    as (_ & Hconditions & _ & _ & Haliases & _); [discriminate|].
  exact (conj Hconditions Haliases).
Defined.

Lemma distributions_shape_witness :
  config_field (distribution (fst (example_assets ∅ empty_template)))
    "Origins"
  = Some (List
      [ Dict [ ("Id", Str "Assets");
               ("DomainName", GetAtt "AssetsBucket" "DomainName");
               ("S3OriginConfig",
                 Dict [ ("OriginAccessIdentity", Str "") ]) ] ])
  /\ config_field (media_distribution (fst (example_assets ∅ empty_template)))
       "Origins"
     = Some (List
         [ Dict [ ("Id", Str "Assets");
                  ("DomainName", GetAtt "PrivateAssetsBucket" "DomainName");
                  ("S3OriginConfig",
                    Dict [ ("OriginAccessIdentity", Str "") ]) ] ])
  /\ behavior_field (distribution (fst (example_assets ∅ empty_template)))
       "ForwardedValues"
     = Some (Dict
         [ ("QueryString", Bool true);
           ("Headers", List [ Str "Origin";
                              Str "Access-Control-Request-Headers";
                              Str "Access-Control-Request-Method" ]) ])
  /\ behavior_field
       (media_distribution (fst (example_assets ∅ empty_template)))
       "ForwardedValues"
     = Some (Dict
         [ ("QueryString", Bool true);
           ("Headers", List [ Str "Origin";
                              Str "Access-Control-Request-Headers";
                              Str "Access-Control-Request-Method" ]) ])
  /\ behavior_field (distribution (fst (example_assets ∅ empty_template)))
       "ViewerProtocolPolicy" = Some (Str "allow-all")
  /\ behavior_field
       (media_distribution (fst (example_assets ∅ empty_template)))
       "ViewerProtocolPolicy" = Some (Str "allow-all").
Proof.
  destruct (distributions_shape (Str "arn:aws") (Ref "DomainName")
              (Ref "DomainNameAlternates") "NoAlternateDomains"
              ∅ empty_template)
    as (_ & _ & _ & _ & _ & _ & (Ho1 & Hf1 & Hp1) & (Ho2 & Hf2 & Hp2));
    [discriminate|].
  exact (conj Ho1 (conj Ho2 (conj Hf1 (conj Hf2 (conj Hp1 Hp2))))).
Defined.

Lemma distribution_declarations_witness :
  size (parameters (snd (example_assets ∅ empty_template))) = 3
  /\ size (filter is_distribution
             (resources (snd (example_assets ∅ empty_template)))) = 2.
Proof.
  destruct (distribution_declarations (Str "arn:aws") (Ref "DomainName")
              (Ref "DomainNameAlternates") "NoAlternateDomains"
              ∅ empty_template)
    as (_ & _ & Hparameters & _ & _ & _ & _ & Hdistributions & _);
    [discriminate|].
  exact (conj Hparameters Hdistributions).
Defined.

(** C7 as stated fails: from an empty accumulator and outside GovCloud the
    template holds three parameters, not two (and one condition name). *)
Lemma two_parameters_two_conditions_counterexample :
  ~ (size (parameters (snd (example_assets ∅ empty_template))) = 2
     /\ size (conditions (snd (example_assets ∅ empty_template))) = 2
     /\ size (filter is_distribution
                (resources (snd (example_assets ∅ empty_template)))) = 2).
Proof. intros [Hparameters _]. vm_compute in Hparameters. discriminate. Qed.

(** C4 on the module as written. The [Aliases] gate reads the condition
    [NoMediaDistributionAlias], which holds the certificate test: with an
    empty alias and a certificate ARN the resolved media distribution has
    [Aliases] equal to the list of the empty string, and with an alias and no
    certificate ARN it has no [Aliases]. *)
Theorem media_aliases_follow_certificate :
  (exists d config,
     media_distribution (fst (example_assets ∅ empty_template)) = Some d
     /\ resolve_resource
          (example_stack ""
             "arn:aws:acm:us-east-1:111122223333:certificate/media")
          (snd (example_assets ∅ empty_template)) d
        = Value (JDict [ ("DistributionConfig", JDict config) ])
     /\ bindings "Aliases" config = [ ("Aliases", JList [ JStr "" ]) ])
  /\ (exists d config,
        media_distribution (fst (example_assets ∅ empty_template)) = Some d
        /\ resolve_resource (example_stack "media.example.com" "")
             (snd (example_assets ∅ empty_template)) d
           = Value (JDict [ ("DistributionConfig", JDict config) ])
        /\ bindings "Aliases" config = []).
Proof.
  split.
  - destruct (media_distribution_resolved (Str "arn:aws") (Ref "DomainName")
                (Ref "DomainNameAlternates") "NoAlternateDomains"
                ∅ empty_template
                (example_stack ""
                   "arn:aws:acm:us-east-1:111122223333:certificate/media")
                ""
                "arn:aws:acm:us-east-1:111122223333:certificate/media"
                (JStr "stack-privateassetsbucket-1.s3.amazonaws.com"))
      as (d & Hd & Hresolved); [discriminate | reflexivity..|].
    exists d. eexists. split; [exact Hd|]. split; [exact Hresolved|].
    reflexivity.
  - destruct (media_distribution_resolved (Str "arn:aws") (Ref "DomainName")
                (Ref "DomainNameAlternates") "NoAlternateDomains"
                ∅ empty_template
                (example_stack "media.example.com" "")
                "media.example.com" ""
                (JStr "stack-privateassetsbucket-1.s3.amazonaws.com"))
      as (d & Hd & Hresolved); [discriminate | reflexivity..|].
    exists d. eexists. split; [exact Hd|]. split; [exact Hresolved|].
    reflexivity.
Qed.

(** The gate at some values: only [on] suppresses the distributions. *)
Example govcloud_gate_values :
  Forall (fun environ =>
            is_Some (distribution (fst (example_assets environ empty_template))))
    [ ∅; {[ "USE_GOVCLOUD" := "ON" ]}; {[ "USE_GOVCLOUD" := "true" ]};
      {[ "USE_GOVCLOUD" := "1" ]}; {[ "USE_GOVCLOUD" := "off" ]};
      {[ "USE_GOVCLOUD" := "" ]}; {[ "GOVCLOUD" := "on" ]} ]
  /\ distribution
       (fst (example_assets {[ "USE_GOVCLOUD" := "on" ]} empty_template))
     = None.
Proof. split; [repeat constructor; by eexists | reflexivity]. Qed.

(** ** The allow-list when the condition and the alternates disagree *)

Section cors_edges.
Variable domain_name domain_name_alternates : Expr.
Variable no_alt_domains : string.

(** The allowed origins for any truth value of the condition: the pieces of
    the joined string. *)
Lemma cors_origins_split (st : Stack) (conds : gmap string bool)
    (d : string) (alts : list string) (b : bool) :
  resolve st conds domain_name = Value (JStr d) ->
  resolve st conds domain_name_alternates = Value (JList (JStr <$> alts)) ->
  conds !! no_alt_domains = Some b ->
  resolve st conds <$>
    cors_allowed_origins
      (common_bucket_conf domain_name domain_name_alternates no_alt_domains)
  = Some (Value (JList (JStr <$> split ";"
      (join "" [ "https://"; d; if b then "" else ";https://";
                 join ";https://" alts ])))).
Proof.
  intros Hd Halts Hcond.
  change (cors_allowed_origins _)
    with (Some (Split ";" (Join "" (List
            [ Str "https://"; domain_name;
              If no_alt_domains (Str "") (Str ";https://");
              Join ";https://" domain_name_alternates ])))).
  cbn [fmap option_fmap option_map resolve].
  rewrite Hd, Halts, Hcond, strings_of_fmap.
  by destruct b.
Qed.
End cors_edges.

Section cors_disagreement.
Variable domain_name domain_name_alternates : Expr.
Variable no_alt_domains : string.

(** X9. If the condition is false while there is no alternate, the separator
    the module writes for the first alternate stays at the end and the list
    gains the dangling origin ["https://"]. *)
Theorem cors_origins_dangling (st : Stack) (conds : gmap string bool)
    (d : string) :
  resolve st conds domain_name = Value (JStr d) ->
  resolve st conds domain_name_alternates = Value (JList []) ->
  conds !! no_alt_domains = Some false ->
  has_char ";" d = false ->
  resolve st conds <$>
    cors_allowed_origins
      (common_bucket_conf domain_name domain_name_alternates no_alt_domains)
  = Some (Value (JList [ JStr ("https://" +:+ d); JStr "https://" ])).
Proof.
  intros Hd Halts Hcond Hsd.
  rewrite (cors_origins_split _ _ _ st conds d [] false) by assumption.
  change (join "" [ "https://"; d; ";https://"; join ";https://" [] ])
    with (("https://" +:+ d) +:+ ";" +:+ "https://" +:+ "").
  rewrite (string_app_nil_r "https://").
  change (("https://" +:+ d) +:+ ";" +:+ "https://")
    with (join ";" [ "https://" +:+ d; "https://" ]).
  rewrite (split_join ";"%char); [reflexivity|].
  repeat constructor. by apply has_char_https.
Qed.

(** X10. If the condition is true while there are alternates, no separator is
    written after the primary domain and the first alternate is glued to
    it. *)
Theorem cors_origins_glued (st : Stack) (conds : gmap string bool)
    (d a : string) (alts : list string) :
  resolve st conds domain_name = Value (JStr d) ->
  resolve st conds domain_name_alternates
  = Value (JList (JStr <$> a :: alts)) ->
  conds !! no_alt_domains = Some true ->
  has_char ";" d = false ->
  Forall (fun x => has_char ";" x = false) (a :: alts) ->
  resolve st conds <$>
    cors_allowed_origins
      (common_bucket_conf domain_name domain_name_alternates no_alt_domains)
  = Some (Value (JList
      (JStr <$> ("https://" +:+ d +:+ a)
                :: (String.append "https://" <$> alts)))).
Proof.
  intros Hd Halts Hcond Hsd Hsalts.
  rewrite (cors_origins_split _ _ _ st conds d (a :: alts) true) by assumption.
  inversion Hsalts as [|? ? Ha Hrest]; subst.
  assert (join "" [ "https://"; d; ""; join ";https://" (a :: alts) ]
          = join ";" (("https://" +:+ d +:+ a)
                      :: (String.append "https://" <$> alts))) as ->.
  { destruct alts as [|b alts]; [reflexivity|].
    change (join ";https://" (a :: b :: alts))
      with (a +:+ ";" +:+ "https://" +:+ join ";https://" (b :: alts)).
    rewrite join_alternates.
    change (("https://" +:+ d) +:+ a +:+ ";"
              +:+ join ";" (String.append "https://" <$> b :: alts)
            = ("https://" +:+ d +:+ a) +:+ ";"
              +:+ join ";" (String.append "https://" <$> b :: alts)).
    by rewrite !string_app_assoc. }
  rewrite (split_join ";"%char); [reflexivity|].
  constructor.
  - apply has_char_https; [reflexivity|].
    by rewrite has_char_app, Hsd, Ha.
  - apply Forall_fmap. eapply Forall_impl; [exact Hrest|].
    intros x Hx. by apply has_char_https.
Qed.
End cors_disagreement.

(** ** The module as a whole *)

Section module_properties.
Variable arn_prefix : Expr.
Variable domain_name domain_name_alternates : Expr.
Variable no_alt_domains : string.

Abbreviation run := (assets arn_prefix domain_name domain_name_alternates
                       no_alt_domains).

(** X1. Whatever the environment, the module leaves every declaration it does
    not name as it found it: resources other than its two buckets and two
    distributions, outputs other than its three, parameters other than its
    three, and conditions other than [NoMediaDistributionAlias]. *)
Theorem other_declarations_untouched
    (environ : gmap string string) (t0 : Template) (k : string) :
  let t := snd (run environ t0) in
  (k ∉ [ "AssetsBucket"; "PrivateAssetsBucket"; "AssetsDistribution";
         "MediaAssetsDistribution" ] ->
   resources t !! k = resources t0 !! k)
  /\ (k ∉ [ "AssetsBucketDomainName"; "PrivateAssetsBucketDomainName";
            "AssetsDistributionDomainName" ] ->
      outputs t !! k = outputs t0 !! k)
  /\ (k ∉ [ "DistributionAliases"; "MediaDistributionAlias";
            "MediaAcmCertificateArn" ] ->
      parameters t !! k = parameters t0 !! k)
  /\ (k ≠ "NoMediaDistributionAlias" ->
      conditions t !! k = conditions t0 !! k).
Proof.
  intros t. subst t. unfold assets.
  destruct (environ_ne environ _ _); run_assets;
    (split; [|split; [|split]]); intros Hk;
    repeat (apply not_elem_of_cons in Hk as [? Hk]);
    by rewrite ?lookup_insert_ne.
Qed.

(** X2. The module reads one environment variable: two environments that agree
    on [USE_GOVCLOUD] give the same bindings and the same template. *)
Theorem environment_read_through_govcloud
    (environ environ' : gmap string string) (t0 : Template) :
  environ !! "USE_GOVCLOUD" = environ' !! "USE_GOVCLOUD" ->
  run environ t0 = run environ' t0.
Proof.
  intros Hsame. unfold assets, environ_ne. by rewrite Hsame.
Qed.

(** X5. Outside GovCloud the primary distribution resolves, in any stack, to a
    configuration whose [Aliases] is the value of the [DistributionAliases]
    parameter as it is (also when empty) and which has no
    [ViewerCertificate], whatever the media parameters are. *)
Theorem assets_distribution_resolved (environ : gmap string string)
    (t0 : Template) (st : Stack) (aliases domain : Json) :
  environ !! "USE_GOVCLOUD" ≠ Some "on" ->
  refs st !! "DistributionAliases" = Some aliases ->
  atts st !! ("AssetsBucket", "DomainName") = Some domain ->
  exists d, distribution (fst (run environ t0)) = Some d
  /\ resolve_resource st (snd (run environ t0)) d
     = Value (JDict [ ("DistributionConfig", JDict
         [ ("Aliases", aliases);
           ("Origins", JList [ JDict
             [ ("Id", JStr "Assets");
               ("DomainName", domain);
               ("S3OriginConfig",
                 JDict [ ("OriginAccessIdentity", JStr "") ]) ] ]);
           ("DefaultCacheBehavior", JDict
             [ ("TargetOriginId", JStr "Assets");
               ("ForwardedValues", JDict
                 [ ("QueryString", JBool true);
                   ("Headers", JList
                     [ JStr "Origin";
                       JStr "Access-Control-Request-Headers";
                       JStr "Access-Control-Request-Method" ]) ]);
               ("ViewerProtocolPolicy", JStr "allow-all") ]);
           ("Enabled", JBool true) ]) ]).
Proof.
  intros Hoff Haliases Hdomain. unfold assets.
  rewrite (environ_ne_true _ _ _ Hoff). run_assets.
  eexists. split; [reflexivity|].
  unfold resolve_resource, resolve_in.
  cbn [List.filter is_attribute existsb resource_attributes fst negb orb
       String.eqb Ascii.eqb Bool.eqb].
  unfold DistributionConfig, Origin, S3Origin, DefaultCacheBehavior,
    ForwardedValues.
  cbn [properties resolve]. cbn [String.eqb Ascii.eqb Bool.eqb].
  by rewrite Haliases, Hdomain.
Qed.

(** X6. Outside GovCloud the resolved media distribution has its [Aliases] and
    its [ViewerCertificate] together or not at all: the two gates read one
    condition. *)
Theorem media_aliases_with_certificate (environ : gmap string string)
    (t0 : Template) (st : Stack) (alias arn : string) (domain : Json) :
  environ !! "USE_GOVCLOUD" ≠ Some "on" ->
  refs st !! "MediaDistributionAlias" = Some (JStr alias) ->
  refs st !! "MediaAcmCertificateArn" = Some (JStr arn) ->
  atts st !! ("PrivateAssetsBucket", "DomainName") = Some domain ->
  exists d config,
    media_distribution (fst (run environ t0)) = Some d
    /\ resolve_resource st (snd (run environ t0)) d
       = Value (JDict [ ("DistributionConfig", JDict config) ])
    /\ length (bindings "Aliases" config)
       = length (bindings "ViewerCertificate" config)
    /\ (bindings "Aliases" config = [] <-> arn = "").
Proof.
  intros Hoff Halias Harn Hdomain.
  destruct (media_distribution_resolved arn_prefix domain_name
              domain_name_alternates no_alt_domains environ t0 st alias arn
              domain)
    as (d & Hd & Hresolved); try assumption.
  exists d. eexists. split; [exact Hd|]. split; [exact Hresolved|].
  destruct (String.eqb_spec arn "") as [->|Hne]; cbn.
  - split; [reflexivity|]. by split.
  - split; [reflexivity|]. split; [discriminate | contradiction].
Qed.

(** X8. Outside GovCloud the default cache behavior of each distribution
    targets the [Id] of the distribution's only origin. *)
Theorem cache_behavior_targets_origin
    (environ : gmap string string) (t0 : Template) :
  environ !! "USE_GOVCLOUD" ≠ Some "on" ->
  let m := fst (run environ t0) in
  let targets (d : option AWSObject) :=
    exists origin,
      config_field d "Origins" = Some (List [ origin ])
      /\ is_Some (field "Id" origin)
      /\ behavior_field d "TargetOriginId" = field "Id" origin in
  targets (distribution m) /\ targets (media_distribution m).
Proof.
  intros Hoff m targets. subst m targets. unfold assets.
  rewrite (environ_ne_true _ _ _ Hoff). run_assets.
  split; (eexists; split; [reflexivity|]; split; [by eexists | reflexivity]).
Qed.

(** The module keeps the truth value of a condition registered before it
    under another name than [NoMediaDistributionAlias]. *)
Lemma condition_values_kept (environ : gmap string string) (t0 : Template)
    (st : Stack) (name : string) :
  name ≠ "NoMediaDistributionAlias" ->
  condition_values st (snd (run environ t0)) !! name
  = condition_values st t0 !! name.
Proof.
  intros Hname. unfold condition_values. rewrite !lookup_omap.
  f_equal. unfold assets.
  destruct (environ_ne environ _ _); run_assets; by rewrite ?lookup_insert_ne.
Qed.

(** X4. In a stack of the finished template both buckets resolve: the
    condition the domain collaborator registered (under a name the module
    does not reuse) still says whether there are alternates, and each bucket
    has its access control, versioning [Enabled] and one CORS rule allowing
    the origins of the primary domain and of each alternate, the methods
    POST, PUT, HEAD and GET and every header. *)
Theorem buckets_resolved (environ : gmap string string) (t0 : Template)
    (st : Stack) (d : string) (alts : list string) (c : Expr) :
  (forall conds, resolve st conds domain_name = Value (JStr d)) ->
  (forall conds, resolve st conds domain_name_alternates
                 = Value (JList (JStr <$> alts))) ->
  no_alt_domains ≠ "NoMediaDistributionAlias" ->
  conditions t0 !! no_alt_domains = Some c ->
  condition_value st c = Some (bool_decide (alts = [])) ->
  has_char ";" d = false ->
  Forall (fun a => has_char ";" a = false) alts ->
  let m := fst (run environ t0) in
  let t := snd (run environ t0) in
  let bucket (access : string) :=
    Value (JDict
      [ ("AccessControl", JStr access);
        ("VersioningConfiguration", JDict [ ("Status", JStr "Enabled") ]);
        ("CorsConfiguration", JDict
          [ ("CorsRules", JList [ JDict
              [ ("AllowedOrigins", JList
                  (JStr <$> ("https://" +:+ d)
                            :: (String.append "https://" <$> alts)));
                ("AllowedMethods",
                  JList [ JStr "POST"; JStr "PUT"; JStr "HEAD"; JStr "GET" ]);
                ("AllowedHeaders", JList [ JStr "*" ]) ] ]) ]) ]) in
  resolve_resource st t (assets_bucket m) = bucket "PublicRead"
  /\ resolve_resource st t (private_assets_bucket m) = bucket "Private".
Proof.
  intros Hd Halts Hname Hc Hvalue Hsd Hsalts m t bucket.
  assert (condition_values st t !! no_alt_domains
          = Some (bool_decide (alts = []))) as Hcond.
  { subst t. rewrite condition_values_kept by assumption.
    unfold condition_values. rewrite lookup_omap, Hc. exact Hvalue. }
  unfold resolve_resource, resolve_in.
  generalize dependent (condition_values st t). intros conds Hcond.
  assert (resolve st conds
            (Split ";" (Join "" (List
               [ Str "https://"; domain_name;
                 If no_alt_domains (Str "") (Str ";https://");
                 Join ";https://" domain_name_alternates ])))
          = Value (JList (JStr <$> ("https://" +:+ d)
                                   :: (String.append "https://" <$> alts))))
    as Horigins.
  { pose proof (cors_origins_split domain_name domain_name_alternates
                  no_alt_domains st conds d alts _ (Hd conds) (Halts conds)
                  Hcond) as Hsplit.
    apply (inj Some). etransitivity; [exact Hsplit|].
    rewrite origins_string, (split_join ";"%char); [reflexivity|].
    constructor; [by apply has_char_https|].
    apply Forall_fmap. eapply Forall_impl; [exact Hsalts|].
    intros a Ha. by apply has_char_https. }
  subst m bucket. unfold assets.
  destruct (environ_ne environ _ _); run_assets;
    unfold common_bucket_conf, VersioningConfiguration, CorsConfiguration,
      CorsRules, PublicRead, Private;
    cbn [List.filter is_attribute existsb resource_attributes fst negb orb
         String.eqb Ascii.eqb Bool.eqb];
    remember (Split ";" _) as origins eqn:Horig in *; clear Horig;
    cbn [properties resolve]; rewrite Horigins; split; reflexivity.
Qed.

(** X3. In both branches the module's template has no dangling reference.
    Started on an empty accumulator, every [Ref], [Fn::GetAtt] and [Fn::If]
    in a resource, an output, a condition or the policy points at a
    declaration of the finished template (or at [AWS::NoValue]), except for
    what comes with the collaborators' expressions: the references inside
    [domain_name], [domain_name_alternates] and [arn_prefix] and the
    condition [no_alt_domains]. *)
Theorem references_declared (environ : gmap string string) :
  let m := fst (run environ empty_template) in
  let t := snd (run environ empty_template) in
  let imported : list Reference :=
    (references domain_name ++ references domain_name_alternates
     ++ references arn_prefix ++ [ ToCondition no_alt_domains ])%list in
  let declared (e : Expr) :=
    Forall (fun r => r ∈ imported \/ declared_in t r = true) (references e) in
  map_Forall (fun _ r => declared (Dict (properties r))) (resources t)
  /\ map_Forall (fun _ o => declared (Dict (decl_properties o))) (outputs t)
  /\ map_Forall (fun _ p => declared (Dict (decl_properties p))) (parameters t)
  /\ map_Forall (fun _ c => declared c) (conditions t)
  /\ declared (assets_management_policy m).
Proof.
  intros m t imported declared. subst m t declared. unfold assets.
  assert (forall P : Reference -> Prop,
            Forall (fun r => r ∈ imported \/ P r) (references domain_name))
    as Hdomain.
  { intros P. apply Forall_forall. intros r Hr. left. subst imported.
    rewrite !elem_of_app. auto. }
  assert (forall P : Reference -> Prop,
            Forall (fun r => r ∈ imported \/ P r)
              (references domain_name_alternates)) as Halternates.
  { intros P. apply Forall_forall. intros r Hr. left. subst imported.
    rewrite !elem_of_app. auto. }
  assert (forall P : Reference -> Prop,
            Forall (fun r => r ∈ imported \/ P r) (references arn_prefix))
    as Hprefix.
  { intros P. apply Forall_forall. intros r Hr. left. subst imported.
    rewrite !elem_of_app. auto. }
  assert (ToCondition no_alt_domains ∈ imported) as Hcondition.
  { subst imported. rewrite !elem_of_app. right. right. right. constructor. }
  clearbody imported.
  destruct (environ_ne environ _ _); run_assets;
    unfold common_bucket_conf, VersioningConfiguration, CorsConfiguration,
      CorsRules, DistributionConfig, Origin, S3Origin, DefaultCacheBehavior,
      ForwardedValues, ViewerCertificate, iam_Policy, dict;
    cbn [List.filter is_attribute existsb resource_attributes fst negb orb
         String.eqb Ascii.eqb Bool.eqb];
    repeat match goal with
      | |- _ /\ _ => split
      | |- map_Forall _ _ =>
          first [ apply map_Forall_empty | apply map_Forall_insert_2 ]
      end;
    cbn [properties decl_properties references app];
    repeat match goal with
      | |- Forall _ [] => constructor
      | |- Forall _ (_ ++ _) => apply Forall_app; split
      | |- Forall _ (references domain_name) => apply Hdomain
      | |- Forall _ (references domain_name_alternates) => apply Halternates
      | |- Forall _ (references arn_prefix) => apply Hprefix
      | |- Forall _ (_ :: _) => constructor
      | |- ToCondition no_alt_domains ∈ _ \/ _ => left; exact Hcondition
      | |- _ \/ declared_in _ _ = true => right; vm_compute; reflexivity
      end.
Qed.

(** X7. In the use the parameter descriptions ask for, an alias together with
    its certificate or neither, the shared condition does no harm: the
    resolved media distribution has no [Aliases] when the alias is empty and
    the one-element list of the alias otherwise. *)
Theorem media_aliases_when_paired (environ : gmap string string)
    (t0 : Template) (st : Stack) (alias arn : string) (domain : Json) :
  environ !! "USE_GOVCLOUD" ≠ Some "on" ->
  refs st !! "MediaDistributionAlias" = Some (JStr alias) ->
  refs st !! "MediaAcmCertificateArn" = Some (JStr arn) ->
  atts st !! ("PrivateAssetsBucket", "DomainName") = Some domain ->
  (alias = "" <-> arn = "") ->
  exists d config,
    media_distribution (fst (run environ t0)) = Some d
    /\ resolve_resource st (snd (run environ t0)) d
       = Value (JDict [ ("DistributionConfig", JDict config) ])
    /\ bindings "Aliases" config
       = if String.eqb alias "" then []
         else [ ("Aliases", JList [ JStr alias ]) ].
Proof.
  intros Hoff Halias Harn Hdomain Hpaired.
  destruct (media_distribution_resolved arn_prefix domain_name
              domain_name_alternates no_alt_domains environ t0 st alias arn
              domain)
    as (d & Hd & Hresolved); try assumption.
  exists d. eexists. split; [exact Hd|]. split; [exact Hresolved|].
  destruct (String.eqb_spec arn "") as [Harn0|Harn0],
    (String.eqb_spec alias "") as [Halias0|Halias0];
    try reflexivity; exfalso; tauto.
Qed.
End module_properties.

(** ** Further properties at the example instance *)

Lemma cors_origins_dangling_witness :
  resolve {| refs := {[ "DomainName" := JStr "example.com";
                        "DomainNameAlternates" := JList [] ]};
             atts := ∅ |}
          {[ "NoAlternateDomains" := false ]} <$>
    cors_allowed_origins
      (common_bucket_conf (Ref "DomainName") (Ref "DomainNameAlternates")
         "NoAlternateDomains")
  = Some (Value (JList [ JStr "https://example.com"; JStr "https://" ])).
Proof.
  apply (cors_origins_dangling (Ref "DomainName") (Ref "DomainNameAlternates")
           "NoAlternateDomains"
           {| refs := {[ "DomainName" := JStr "example.com";
                         "DomainNameAlternates" := JList [] ]};
              atts := ∅ |}
           {[ "NoAlternateDomains" := false ]} "example.com");
    reflexivity.
Defined.

Lemma cors_origins_glued_witness :
  resolve (example_stack "" "") {[ "NoAlternateDomains" := true ]} <$>
    cors_allowed_origins
      (common_bucket_conf (Ref "DomainName") (Ref "DomainNameAlternates")
         "NoAlternateDomains")
  = Some (Value (JList [ JStr "https://example.comalt1.com";
                         JStr "https://alt2.com" ])).
Proof.
  apply (cors_origins_glued (Ref "DomainName") (Ref "DomainNameAlternates")
           "NoAlternateDomains" (example_stack "" "")
           {[ "NoAlternateDomains" := true ]}
           "example.com" "alt1.com" [ "alt2.com" ]);
    try reflexivity.
  repeat constructor.
Defined.

Lemma other_declarations_untouched_witness :
  parameters (snd (example_assets ∅ example_domain_template)) !! "DomainName"
  = Some (Parameter_ "DomainName" [ ("Type", Str "String") ])
  /\ conditions (snd (example_assets ∅ example_domain_template))
       !! "NoAlternateDomains"
     = Some (Equals (Join "" (Ref "DomainNameAlternates")) (Str "")).
Proof.
  destruct (other_declarations_untouched (Str "arn:aws") (Ref "DomainName")
              (Ref "DomainNameAlternates") "NoAlternateDomains"
              ∅ example_domain_template "DomainName")
    as (_ & _ & Hparameters & _).
  destruct (other_declarations_untouched (Str "arn:aws") (Ref "DomainName")
              (Ref "DomainNameAlternates") "NoAlternateDomains"
              ∅ example_domain_template "NoAlternateDomains")
    as (_ & _ & _ & Hconditions).
  split.
  - etransitivity; [apply Hparameters|reflexivity].
    intros Hin. repeat (apply elem_of_cons in Hin as [Hin|Hin];
                        [discriminate|]).
    by apply elem_of_nil in Hin.
  - etransitivity; [apply Hconditions; discriminate|reflexivity].
Defined.

Lemma environment_read_through_govcloud_witness :
  example_assets {[ "HOME" := "/root"; "USE_GOVCLOUD" := "off" ]}
    empty_template
  = example_assets {[ "USE_GOVCLOUD" := "off" ]} empty_template.
Proof.
  apply (environment_read_through_govcloud (Str "arn:aws") (Ref "DomainName")
           (Ref "DomainNameAlternates") "NoAlternateDomains").
  reflexivity.
Defined.

Lemma assets_distribution_resolved_witness :
  exists d config,
    distribution (fst (example_assets ∅ empty_template)) = Some d
    /\ resolve_resource (example_stack "" "")
         (snd (example_assets ∅ empty_template)) d
       = Value (JDict [ ("DistributionConfig", JDict config) ])
    /\ bindings "Aliases" config
       = [ ("Aliases", JList [ JStr "static.example.com" ]) ]
    /\ bindings "ViewerCertificate" config = [].
Proof.
  destruct (assets_distribution_resolved (Str "arn:aws") (Ref "DomainName")
              (Ref "DomainNameAlternates") "NoAlternateDomains"
              ∅ empty_template (example_stack "" "")
              (JList [ JStr "static.example.com" ])
              (JStr "stack-assetsbucket-1.s3.amazonaws.com"))
    as (d & Hd & Hresolved); [discriminate | reflexivity | reflexivity |].
  exists d. eexists. split; [exact Hd|]. split; [exact Hresolved|].
  split; reflexivity.
Defined.

Lemma media_aliases_with_certificate_witness :
  exists d config,
    media_distribution (fst (example_assets ∅ empty_template)) = Some d
    /\ resolve_resource
         (example_stack ""
            "arn:aws:acm:us-east-1:111122223333:certificate/media")
         (snd (example_assets ∅ empty_template)) d
       = Value (JDict [ ("DistributionConfig", JDict config) ])
    /\ length (bindings "Aliases" config)
       = length (bindings "ViewerCertificate" config).
Proof.
  destruct (media_aliases_with_certificate (Str "arn:aws") (Ref "DomainName")
              (Ref "DomainNameAlternates") "NoAlternateDomains"
              ∅ empty_template
              (example_stack ""
                 "arn:aws:acm:us-east-1:111122223333:certificate/media")
              "" "arn:aws:acm:us-east-1:111122223333:certificate/media"
              (JStr "stack-privateassetsbucket-1.s3.amazonaws.com"))
    as (d & config & Hd & Hresolved & Hlength & _);
    [discriminate | reflexivity | reflexivity | reflexivity |].
  exists d, config. auto.
Defined.

Lemma cache_behavior_targets_origin_witness :
  (exists origin,
     config_field (distribution (fst (example_assets ∅ empty_template)))
       "Origins" = Some (List [ origin ])
     /\ behavior_field (distribution (fst (example_assets ∅ empty_template)))
          "TargetOriginId" = field "Id" origin).
Proof.
  destruct (cache_behavior_targets_origin (Str "arn:aws") (Ref "DomainName")
              (Ref "DomainNameAlternates") "NoAlternateDomains"
              ∅ empty_template)
    as ((origin & Horigins & _ & Htarget) & _); [discriminate|].
  exists origin. auto.
Defined.

Lemma buckets_resolved_witness :
  resolve_resource (example_stack "" "")
    (snd (example_assets ∅ example_domain_template))
    (private_assets_bucket (fst (example_assets ∅ example_domain_template)))
  = Value (JDict
      [ ("AccessControl", JStr "Private");
        ("VersioningConfiguration", JDict [ ("Status", JStr "Enabled") ]);
        ("CorsConfiguration", JDict
          [ ("CorsRules", JList [ JDict
              [ ("AllowedOrigins", JList
                  [ JStr "https://example.com"; JStr "https://alt1.com";
                    JStr "https://alt2.com" ]);
                ("AllowedMethods",
                  JList [ JStr "POST"; JStr "PUT"; JStr "HEAD"; JStr "GET" ]);
                ("AllowedHeaders", JList [ JStr "*" ]) ] ]) ]) ]).
Proof.
  destruct (buckets_resolved (Str "arn:aws") (Ref "DomainName")
              (Ref "DomainNameAlternates") "NoAlternateDomains"
              ∅ example_domain_template (example_stack "" "")
              "example.com" [ "alt1.com"; "alt2.com" ]
              (Equals (Join "" (Ref "DomainNameAlternates")) (Str "")))
    as [_ Hprivate].
  - intros conds. reflexivity.
  - intros conds. reflexivity.
  - discriminate.
  - reflexivity.
  - reflexivity.
  - reflexivity.
  - repeat constructor.
  - exact Hprivate.
Defined.

Lemma media_aliases_when_paired_witness :
  exists d config,
    media_distribution (fst (example_assets ∅ empty_template)) = Some d
    /\ resolve_resource
         (example_stack "media.example.com"
            "arn:aws:acm:us-east-1:111122223333:certificate/media")
         (snd (example_assets ∅ empty_template)) d
       = Value (JDict [ ("DistributionConfig", JDict config) ])
    /\ bindings "Aliases" config
       = [ ("Aliases", JList [ JStr "media.example.com" ]) ].
Proof.
  apply (media_aliases_when_paired (Str "arn:aws") (Ref "DomainName")
           (Ref "DomainNameAlternates") "NoAlternateDomains" ∅ empty_template
           (example_stack "media.example.com"
              "arn:aws:acm:us-east-1:111122223333:certificate/media")
           "media.example.com"
           "arn:aws:acm:us-east-1:111122223333:certificate/media"
           (JStr "stack-privateassetsbucket-1.s3.amazonaws.com"));
    [discriminate | reflexivity | reflexivity | reflexivity |].
  split; discriminate.
Defined.
